(** * HPO to FHIR: the transformation of [generate.py]

    [generate.py] loads the Human Phenotype Ontology through pronto, builds a
    FHIR [CodeSystem] resource (a header plus one concept per ontology term,
    with designations and properties) and writes it to [hp.owl.json] as JSON.

    This file embeds that program: the part of pronto's object model the
    script reads, the part of [fhir.resources.codesystem] it fills in, the
    header assignments, the per-term loop with its list appends, and the
    final write to the output file as a small state-and-exception monad over
    the content of that file.  Logging and the tqdm progress bar have no
    effect on the resource and are left out. *)

From Stdlib Require Import String Ascii List Bool Arith Lia.
Import ListNotations.
Open Scope string_scope.

(** ** Python built-ins the script uses *)

Module Py.

(** [str(x)] at an [x] that already is a [str]. *)
Definition str (s : string) : string := s.

(** [l.append(x)], as the list afterwards. *)
Definition append {A : Type} (l : list A) (x : A) : list A := l ++ [x].

(** [s.split(sep)] for a one-character separator: every occurrence of
    [sep] cuts, empty segments are kept, and a string without [sep] comes
    back as the only segment. *)
Fixpoint split (sep : ascii) (s : string) : list string :=
  match s with
  | EmptyString => [EmptyString]
  | String c rest =>
      if Ascii.eqb c sep then EmptyString :: split sep rest
      else match split sep rest with
           | [] => [String c EmptyString]
           | seg :: segs => String c seg :: segs
           end
  end.

(** [sep.join(l)], used to state what [split] returns. *)
Fixpoint join (sep : ascii) (l : list string) : string :=
  match l with
  | [] => EmptyString
  | [s] => s
  | s :: l' => s ++ String sep (join sep l')
  end.

(** [c in s] for a character. *)
Fixpoint contains (c : ascii) (s : string) : bool :=
  match s with
  | EmptyString => false
  | String c' rest => Ascii.eqb c' c || contains c rest
  end.

(** [l[-1]]; Python raises IndexError on the empty list, which is [None]
    here. *)
Fixpoint index_last {A : Type} (l : list A) : option A :=
  match l with
  | [] => None
  | [x] => Some x
  | _ :: l' => index_last l'
  end.

(** Truth value of an optional string in an [if]: [None] and the empty
    string are false. *)
Definition truthy (o : option string) : bool :=
  match o with
  | None => false
  | Some EmptyString => false
  | Some (String _ _) => true
  end.

End Py.

(** ** The ontology as the script reads it (pronto) *)

Module Synonym.
Record t : Type := mk { scope : string; description : string }.
End Synonym.

Module Xref.
Record t : Type := mk { id : string }.
End Xref.

Module Term.
(** [synonyms], [xrefs] and [subsets] are held in the order in which
    iterating the attribute yields them. *)
Record t : Type := mk {
  id : string;
  name : string;
  obsolete : bool;
  definition : option string;
  synonyms : list Synonym.t;
  xrefs : list Xref.t;
  subsets : list string
}.
End Term.

Module Metadata.
Record t : Type := mk { data_version : string }.
End Metadata.

Module Ontology.
(** [terms] is what iterating [hpo.terms()] yields.  [superclasses hpo c
    with_self distance] is what iterating
    [c.superclasses(with_self=..., distance=...).to_set()] yields, and
    likewise [subclasses]; the hierarchy belongs to the ontology, the
    term only forwards the query. *)
Record t : Type := mk {
  metadata : Metadata.t;
  terms : list Term.t;
  superclasses : Term.t -> bool -> option nat -> list Term.t;
  subclasses : Term.t -> bool -> option nat -> list Term.t
}.
End Ontology.

(** ** The resource as the script fills it (fhir.resources.codesystem)

    A field the script always passes to the constructor is held as it is; a
    field it may leave unset is an [option], [None] standing for the
    attribute that was never assigned. *)

Module Coding.
Record t : Type := mk { system : string; code : string; display : string }.
End Coding.

Module CodeSystemConceptDesignation.
Record t : Type := mk { language : string; value : string; use : Coding.t }.
End CodeSystemConceptDesignation.

Module CodeSystemConceptProperty.
Record t : Type := mk {
  code : string;
  valueBoolean : option bool;
  valueString : option string;
  valueCode : option string
}.

(** The three keyword patterns the script constructs a property with. *)
Definition of_boolean (c : string) (b : bool) : t :=
  {| code := c; valueBoolean := Some b; valueString := None; valueCode := None |}.
Definition of_string (c : string) (s : string) : t :=
  {| code := c; valueBoolean := None; valueString := Some s; valueCode := None |}.
Definition of_code (c : string) (s : string) : t :=
  {| code := c; valueBoolean := None; valueString := None; valueCode := Some s |}.

(** How many of the value fields are set. *)
Definition values_set (p : t) : nat :=
  (match valueBoolean p with Some _ => 1 | None => 0 end)
  + (match valueString p with Some _ => 1 | None => 0 end)
  + (match valueCode p with Some _ => 1 | None => 0 end).
End CodeSystemConceptProperty.

Module CodeSystemConcept.
Record t : Type := mk {
  code : string;
  display : string;
  designation : option (list CodeSystemConceptDesignation.t);
  property : option (list CodeSystemConceptProperty.t)
}.

Definition set_designation (c : t) (d : list CodeSystemConceptDesignation.t) : t :=
  {| code := code c; display := display c; designation := Some d;
     property := property c |}.
Definition set_property (c : t) (p : list CodeSystemConceptProperty.t) : t :=
  {| code := code c; display := display c; designation := designation c;
     property := Some p |}.
End CodeSystemConcept.

Module CodeSystem.
Record t : Type := mk {
  status : string;
  content : string;
  version : string;
  name : string;
  title : string;
  versionNeeded : bool;
  experimental : bool;
  url : string;
  valueSet : string;
  count : nat;
  copyright : string;
  purpose : string;
  date : string;
  concept : list CodeSystemConcept.t
}.

Definition set_concept (s : t) (c : list CodeSystemConcept.t) : t :=
  {| status := status s; content := content s; version := version s;
     name := name s; title := title s; versionNeeded := versionNeeded s;
     experimental := experimental s; url := url s; valueSet := valueSet s;
     count := count s; copyright := copyright s; purpose := purpose s;
     date := date s; concept := c |}.
End CodeSystem.

(** ** Settings *)

Definition filename : string := "hp.owl".
Definition codesystem_url : string := "http://purl.obolibrary.org/obo/hp.owl".
Definition codesystem_experimental : bool := true.
Definition download : bool := true.
Definition filename_output : string := "hp.owl.json".

(** ** The header (lines 47 to 62)

    [split] never returns the empty list ([split_not_nil] below), so the
    [[-1]] of line 61 always finds a segment and its IndexError branch is
    dead; the header is therefore a total function of the ontology. *)

Definition stelsel_init (hpo : Ontology.t) : CodeSystem.t :=
  let data_version := Metadata.data_version (Ontology.metadata hpo) in
  {| CodeSystem.status := "active";
     CodeSystem.content := "complete";
     CodeSystem.version :=
       "http://purl.obolibrary.org/obo/hp/" ++ data_version ++ "/hp.owl";
     CodeSystem.name := "HPO";
     CodeSystem.title := "Human Phenotype Ontology";
     CodeSystem.versionNeeded := false;
     CodeSystem.experimental := codesystem_experimental;
     CodeSystem.url := codesystem_url;
     CodeSystem.valueSet := codesystem_url ++ "?vs";
     CodeSystem.count := length (Ontology.terms hpo);
     CodeSystem.copyright :=
       "Please see license of HPO at http://www.human-phenotype-ontology.org.";
     CodeSystem.purpose :=
       "To provide a standardized vocabulary of human phenotypes encountered in human disease in a FHIR context.";
     CodeSystem.date :=
       match Py.index_last (Py.split "/" data_version) with
       | Some segment => segment
       | None => EmptyString
       end;
     CodeSystem.concept := [] |}.

(** ** The loop over the terms (lines 71 to 151) *)

Definition synonym_use : Coding.t :=
  {| Coding.system := "http://snomed.info/sct";
     Coding.code := "900000000000013009";
     Coding.display := "Synonym" |}.

(** Lines 82 to 95: the designations of one term. *)
Definition designations_of (concept : Term.t) : list CodeSystemConceptDesignation.t :=
  fold_left
    (fun _designations synonym =>
       if Synonym.scope synonym =? "EXACT"
       then Py.append _designations
              {| CodeSystemConceptDesignation.language := "en";
                 CodeSystemConceptDesignation.value :=
                   Py.str (Synonym.description synonym);
                 CodeSystemConceptDesignation.use := synonym_use |}
       else _designations)
    (Term.synonyms concept) [].

(** Lines 102 to 143: the properties of one term. *)
Definition properties_of (hpo : Ontology.t) (concept : Term.t)
  : list CodeSystemConceptProperty.t :=
  let _properties := [] in
  let _properties :=
    Py.append _properties
      (CodeSystemConceptProperty.of_boolean "inactive" (Term.obsolete concept)) in
  let _properties :=
    match Term.definition concept with
    | Some definition =>
        if Py.truthy (Some definition)
        then Py.append _properties
               (CodeSystemConceptProperty.of_string "definition" definition)
        else _properties
    | None => _properties
    end in
  let _properties :=
    fold_left
      (fun acc xref =>
         Py.append acc
           (CodeSystemConceptProperty.of_string "xref" (Py.str (Xref.id xref))))
      (Term.xrefs concept) _properties in
  let _properties :=
    fold_left
      (fun acc superclass =>
         Py.append acc
           (CodeSystemConceptProperty.of_code "parent" (Py.str (Term.id superclass))))
      (Ontology.superclasses hpo concept false (Some 1)) _properties in
  let _properties :=
    fold_left
      (fun acc subclass =>
         Py.append acc
           (CodeSystemConceptProperty.of_code "child" (Py.str (Term.id subclass))))
      (Ontology.subclasses hpo concept false (Some 1)) _properties in
  let _properties :=
    fold_left
      (fun acc subset =>
         Py.append acc (CodeSystemConceptProperty.of_string "subset" (Py.str subset)))
      (Term.subsets concept) _properties in
  _properties.

(** Lines 74 to 146: the concept built for one term. *)
Definition concept_of (hpo : Ontology.t) (concept : Term.t) : CodeSystemConcept.t :=
  let _concept :=
    {| CodeSystemConcept.code := Py.str (Term.id concept);
       CodeSystemConcept.display := Py.str (Term.name concept);
       CodeSystemConcept.designation := None;
       CodeSystemConcept.property := None |} in
  let _designations := designations_of concept in
  let _concept :=
    if (0 <? length _designations)%nat
    then CodeSystemConcept.set_designation _concept _designations
    else _concept in
  let _properties := properties_of hpo concept in
  let _concept :=
    if (0 <? length _properties)%nat
    then CodeSystemConcept.set_property _concept _properties
    else _concept in
  _concept.

(** One iteration: line 151 appends the concept to [stelsel.concept]. *)
Definition loop_body (hpo : Ontology.t) (stelsel : CodeSystem.t) (concept : Term.t)
  : CodeSystem.t :=
  CodeSystem.set_concept stelsel
    (Py.append (CodeSystem.concept stelsel) (concept_of hpo concept)).

(** The whole loop, from any state of the resource. *)
Definition add_concepts (hpo : Ontology.t) (stelsel : CodeSystem.t) : CodeSystem.t :=
  fold_left (loop_body hpo) (Ontology.terms hpo) stelsel.

(** The resource handed to the writer (lines 47 to 151). *)
Definition build_codesystem (hpo : Ontology.t) : CodeSystem.t :=
  add_concepts hpo (stelsel_init hpo).

(** ** The run: loading, building, writing (lines 36 to 158)

    The output file is the only state the run changes.  What can go wrong
    outside the script is given by the environment: whether pronto can
    produce the ontology, whether the output path can be opened for writing,
    and how many characters the device takes before a write fails. *)

Definition url : string :=
  "https://raw.githubusercontent.com/obophenotype/human-phenotype-ontology/master/hp.owl".

Inductive exception : Type :=
| OntologyUnavailable
| OSError.

Inductive outcome (A : Type) : Type :=
| Returned (a : A)
| Raised (e : exception).
Arguments Returned {A} a.
Arguments Raised {A} e.

Record Environment : Type := {
  (** [Ontology(url)]: the ontology, or [None] when the call raises. *)
  fetch : string -> option Ontology.t;
  (** [Ontology.from_obo_library(filename)], likewise. *)
  from_obo_library : string -> option Ontology.t;
  (** Whether [open(path, 'w')] succeeds. *)
  writable : string -> bool;
  (** [None]: a write goes through; [Some n]: the device takes [n] more
      characters, and a write of more than [n] raises after them. *)
  capacity : option nat
}.

(** The content of the output file, [None] while it does not exist. *)
Definition File : Type := option string.

Definition IO (A : Type) : Type := File -> outcome A * File.

Definition ret {A : Type} (a : A) : IO A := fun file => (Returned a, file).

Definition raise {A : Type} (e : exception) : IO A := fun file => (Raised e, file).

Definition bind {A B : Type} (m : IO A) (k : A -> IO B) : IO B :=
  fun file =>
    match m file with
    | (Returned a, file') => k a file'
    | (Raised e, file') => (Raised e, file')
    end.

Notation "x <- m ;; k" := (bind m (fun x => k))
  (at level 61, m at next level, right associativity).

(** Lines 38 to 43. *)
Definition load (env : Environment) : IO Ontology.t :=
  match (if download then fetch env url else from_obo_library env filename) with
  | Some hpo => ret hpo
  | None => raise OntologyUnavailable
  end.

(** [open(path, 'w')]: creates the file or truncates it to nothing. *)
Definition open_w (env : Environment) (path : string) : IO unit :=
  fun file =>
    if writable env path then (Returned tt, Some EmptyString)
    else (Raised OSError, file).

(** [outfile.write(text)] and the close at the end of the [with] block. *)
Definition write (env : Environment) (text : string) : IO unit :=
  fun file =>
    let written := match file with Some s => s | None => EmptyString end in
    match capacity env with
    | None => (Returned tt, Some (written ++ text))
    | Some n =>
        if (String.length text <=? n)%nat
        then (Returned tt, Some (written ++ text))
        else (Raised OSError, Some (written ++ substring 0 n text))
    end.

Section Run.

(** [json.dumps(stelsel.dict(), indent=2, default=str, ensure_ascii=False)]:
    the serialisation belongs to the resource model and the json module. *)
Variable dumps : CodeSystem.t -> string.

Definition generate_codesystem (env : Environment) : IO unit :=
  hpo <- load env ;;
  let stelsel := build_codesystem hpo in
  _ <- open_w env filename_output ;;
  write env (dumps stelsel).

End Run.

(** ** An ontology to run the script on

    One term with an EXACT and a RELATED synonym, a cross-reference and a
    subset tag, and one child term that is obsolete and has a definition. *)

Module Sample.

Definition phenotype : Term.t :=
  {| Term.id := "X:001"; Term.name := "Test Phenotype"; Term.obsolete := false;
     Term.definition := None;
     Term.synonyms := [ {| Synonym.scope := "RELATED"; Synonym.description := "Loose Syn" |};
                        {| Synonym.scope := "EXACT"; Synonym.description := "Test Syn" |} ];
     Term.xrefs := [ {| Xref.id := "UMLS:123" |} ];
     Term.subsets := [ "core" ] |}.

Definition child : Term.t :=
  {| Term.id := "X:002"; Term.name := "Narrow Phenotype"; Term.obsolete := true;
     Term.definition := Some "A narrower phenotype.";
     Term.synonyms := []; Term.xrefs := []; Term.subsets := [] |}.

Definition is_term (a b : Term.t) : bool := Term.id a =? Term.id b.

Definition hpo : Ontology.t :=
  {| Ontology.metadata := {| Metadata.data_version := "hp/releases/2024-01-01" |};
     Ontology.terms := [ phenotype; child ];
     Ontology.superclasses := fun c with_self _ =>
       ((if with_self then [c] else [])
        ++ (if is_term c child then [phenotype] else []))%list;
     Ontology.subclasses := fun c with_self _ =>
       ((if with_self then [c] else [])
        ++ (if is_term c phenotype then [child] else []))%list |}.

End Sample.

(** ** Vocabulary of the statements *)


(** The value fields a property may set, by its code. *)
Definition payload_by_code (p : CodeSystemConceptProperty.t) : Prop :=
  (CodeSystemConceptProperty.code p = "inactive"
   /\ CodeSystemConceptProperty.valueBoolean p <> None
   /\ CodeSystemConceptProperty.valueString p = None
   /\ CodeSystemConceptProperty.valueCode p = None)
  \/ ((CodeSystemConceptProperty.code p = "definition"
       \/ CodeSystemConceptProperty.code p = "xref"
       \/ CodeSystemConceptProperty.code p = "subset")
      /\ CodeSystemConceptProperty.valueBoolean p = None
      /\ CodeSystemConceptProperty.valueString p <> None
      /\ CodeSystemConceptProperty.valueCode p = None)
  \/ ((CodeSystemConceptProperty.code p = "parent"
       \/ CodeSystemConceptProperty.code p = "child")
      /\ CodeSystemConceptProperty.valueBoolean p = None
      /\ CodeSystemConceptProperty.valueString p = None
      /\ CodeSystemConceptProperty.valueCode p <> None).

(** The claim that a run either writes the whole document or leaves the
    output file as it found it. *)
Definition all_or_nothing (dumps : CodeSystem.t -> string) (env : Environment)
           (file : File) : Prop :=
  match generate_codesystem dumps env file with
  | (Returned _, file') =>
      exists hpo,
        fetch env url = Some hpo /\ file' = Some (dumps (build_codesystem hpo))
  | (Raised _, file') => file' = file
  end.

(** A device that takes one character and then fails. *)
Definition almost_full : Environment :=
  {| fetch := fun _ => Some Sample.hpo;
     from_obo_library := fun _ => None;
     writable := fun _ => true;
     capacity := Some 1 |}.

(** A serialisation that is at least the braces of a JSON object. *)
Definition braces (stelsel : CodeSystem.t) : string := "{}".

(** The same ontology iterated over another list of terms: metadata and
    hierarchy queries are kept. *)
Definition with_terms (hpo : Ontology.t) (terms : list Term.t) : Ontology.t :=
  {| Ontology.metadata := Ontology.metadata hpo;
     Ontology.terms := terms;
     Ontology.superclasses := Ontology.superclasses hpo;
     Ontology.subclasses := Ontology.subclasses hpo |}.

(** The header of a resource: the resource with its concept list emptied. *)
Definition header_of (stelsel : CodeSystem.t) : CodeSystem.t :=
  CodeSystem.set_concept stelsel [].

(** An environment in which the download succeeds and nothing else is
    available: no local copy of the ontology, unlimited room to write. *)
Definition online_only : Environment :=
  {| fetch := fun _ => Some Sample.hpo;
     from_obo_library := fun _ => None;
     writable := fun _ => true;
     capacity := None |}.

(** The same, with a local copy of the ontology in the OBO library. *)
Definition with_local_copy : Environment :=
  {| fetch := fun _ => Some Sample.hpo;
     from_obo_library := fun _ => Some Sample.hpo;
     writable := fun _ => true;
     capacity := None |}.

(** * Properties *)

(** ** Lists built by appending in a loop *)

Section AppendLoops.

Context {A B : Type}.

Lemma fold_left_append_map (f : A -> B) (l : list A) (acc : list B) :
  fold_left (fun acc x => Py.append acc (f x)) l acc = (acc ++ map f l)%list.
Proof.
  revert acc; induction l as [|x l IH]; intros acc; simpl.
  - now rewrite app_nil_r.
  - rewrite IH. unfold Py.append. now rewrite <- app_assoc.
Qed.

Lemma fold_left_append_filter (keep : A -> bool) (f : A -> B) (l : list A)
      (acc : list B) :
  fold_left (fun acc x => if keep x then Py.append acc (f x) else acc) l acc
  = (acc ++ map f (filter keep l))%list.
Proof.
  revert acc; induction l as [|x l IH]; intros acc; simpl.
  - now rewrite app_nil_r.
  - rewrite IH. destruct (keep x); simpl; [|reflexivity].
    unfold Py.append. now rewrite <- app_assoc.
Qed.


Lemma Forall2_map_right (R : A -> B -> Prop) (f : A -> B) (l : list A) :
  (forall x, R x (f x)) -> Forall2 R l (map f l).
Proof.
  intros HR. induction l; simpl; constructor; auto.
Qed.

Lemma Forall_map_image (P : B -> Prop) (f : A -> B) (l : list A) :
  (forall x, P (f x)) -> Forall P (map f l).
Proof.
  intros HP. induction l; simpl; constructor; auto.
Qed.

End AppendLoops.

(** ** [split] and [l[-1]] *)

Lemma split_not_nil (sep : ascii) (s : string) : Py.split sep s <> [].
Proof.
  destruct s as [|c s]; simpl; [discriminate|].
  destruct (Ascii.eqb c sep); [discriminate|].
  destruct (Py.split sep s); discriminate.
Qed.

Lemma join_split (sep : ascii) (s : string) : Py.join sep (Py.split sep s) = s.
Proof.
  induction s as [|c s IH]; simpl; [reflexivity|].
  destruct (Ascii.eqb_spec c sep) as [->|Hc].
  - pose proof (split_not_nil sep s) as Hne.
    destruct (Py.split sep s) as [|seg segs]; [contradiction|].
    simpl in *. now rewrite IH.
  - pose proof (split_not_nil sep s) as Hne.
    destruct (Py.split sep s) as [|seg segs]; [contradiction|].
    destruct segs as [|seg' segs]; simpl in *; now rewrite <- IH.
Qed.

Lemma split_segments_clean (sep : ascii) (s : string) :
  Forall (fun seg => Py.contains sep seg = false) (Py.split sep s).
Proof.
  induction s as [|c s IH]; simpl.
  - constructor; [reflexivity|constructor].
  - destruct (Ascii.eqb c sep) eqn:Hc.
    + constructor; [reflexivity|exact IH].
    + destruct (Py.split sep s) as [|seg segs].
      * constructor; [simpl; now rewrite Hc|constructor].
      * inversion IH as [|? ? Hseg Hsegs]; subst.
        constructor; [simpl; now rewrite Hc|exact Hsegs].
Qed.

Lemma split_without_sep (sep : ascii) (s : string) :
  Py.contains sep s = false -> Py.split sep s = [s].
Proof.
  induction s as [|c s IH]; simpl; [reflexivity|].
  intros H. apply orb_false_iff in H as [Hc Hs].
  rewrite Hc, (IH Hs). reflexivity.
Qed.

Lemma index_last_snoc {A : Type} (l : list A) (x : A) :
  Py.index_last (l ++ [x]) = Some x.
Proof.
  induction l as [|y l IH]; simpl; [reflexivity|].
  rewrite IH. destruct (l ++ [x])%list eqn:E; [|reflexivity].
  now destruct l.
Qed.

Lemma index_last_decompose {A : Type} (l : list A) :
  l <> [] -> exists front x, l = (front ++ [x])%list /\ Py.index_last l = Some x.
Proof.
  intros Hne. destruct (exists_last Hne) as [front [x ->]].
  exists front, x. split; [reflexivity|apply index_last_snoc].
Qed.

(** ** What one iteration builds *)

Lemma designations_of_closed (concept : Term.t) :
  designations_of concept
  = map (fun synonym =>
           {| CodeSystemConceptDesignation.language := "en";
              CodeSystemConceptDesignation.value := Synonym.description synonym;
              CodeSystemConceptDesignation.use := synonym_use |})
        (filter (fun synonym => Synonym.scope synonym =? "EXACT")
                (Term.synonyms concept)).
Proof.
  unfold designations_of.
  exact (fold_left_append_filter
           (fun synonym => Synonym.scope synonym =? "EXACT") _ _ []).
Qed.

Lemma properties_of_closed (hpo : Ontology.t) (concept : Term.t) :
  properties_of hpo concept
  = ([CodeSystemConceptProperty.of_boolean "inactive" (Term.obsolete concept)]
     ++ match Term.definition concept with
        | Some (String a d) =>
            [CodeSystemConceptProperty.of_string "definition" (String a d)]
        | _ => []
        end
     ++ map (fun xref => CodeSystemConceptProperty.of_string "xref" (Xref.id xref))
            (Term.xrefs concept)
     ++ map (fun superclass =>
               CodeSystemConceptProperty.of_code "parent" (Term.id superclass))
            (Ontology.superclasses hpo concept false (Some 1))
     ++ map (fun subclass =>
               CodeSystemConceptProperty.of_code "child" (Term.id subclass))
            (Ontology.subclasses hpo concept false (Some 1))
     ++ map (fun subset => CodeSystemConceptProperty.of_string "subset" subset)
            (Term.subsets concept))%list.
Proof.
  unfold properties_of, Py.str.
  rewrite !fold_left_append_map.
  destruct (Term.definition concept) as [[|a d]|]; simpl;
    unfold Py.append; simpl; rewrite <- ?app_assoc; reflexivity.
Qed.

Lemma properties_of_cons (hpo : Ontology.t) (concept : Term.t) :
  exists rest,
    properties_of hpo concept
    = CodeSystemConceptProperty.of_boolean "inactive" (Term.obsolete concept) :: rest.
Proof.
  rewrite properties_of_closed. simpl. eexists. reflexivity.
Qed.

Lemma concept_of_code (hpo : Ontology.t) (concept : Term.t) :
  CodeSystemConcept.code (concept_of hpo concept) = Term.id concept.
Proof.
  unfold concept_of.
  destruct (0 <? length (designations_of concept))%nat,
           (0 <? length (properties_of hpo concept))%nat; reflexivity.
Qed.

Lemma concept_of_display (hpo : Ontology.t) (concept : Term.t) :
  CodeSystemConcept.display (concept_of hpo concept) = Term.name concept.
Proof.
  unfold concept_of.
  destruct (0 <? length (designations_of concept))%nat,
           (0 <? length (properties_of hpo concept))%nat; reflexivity.
Qed.

Lemma concept_of_designation (hpo : Ontology.t) (concept : Term.t) :
  CodeSystemConcept.designation (concept_of hpo concept)
  = match designations_of concept with
    | [] => None
    | d :: ds => Some (d :: ds)
    end.
Proof.
  unfold concept_of.
  destruct (properties_of_cons hpo concept) as [rest ->].
  destruct (designations_of concept); reflexivity.
Qed.

Lemma concept_of_property (hpo : Ontology.t) (concept : Term.t) :
  CodeSystemConcept.property (concept_of hpo concept)
  = Some (properties_of hpo concept).
Proof.
  unfold concept_of.
  destruct (properties_of_cons hpo concept) as [rest ->].
  destruct (designations_of concept); reflexivity.
Qed.

(** ** What the loop does to the resource *)

Lemma fold_loop_body (hpo : Ontology.t) (terms : list Term.t) (stelsel : CodeSystem.t) :
  fold_left (loop_body hpo) terms stelsel
  = CodeSystem.set_concept stelsel
      (CodeSystem.concept stelsel ++ map (concept_of hpo) terms).
Proof.
  revert stelsel; induction terms as [|term terms IH]; intros stelsel; simpl.
  - rewrite app_nil_r. now destruct stelsel.
  - rewrite IH. unfold loop_body, Py.append. simpl.
    now rewrite <- app_assoc.
Qed.

Lemma build_codesystem_concept (hpo : Ontology.t) :
  CodeSystem.concept (build_codesystem hpo)
  = map (concept_of hpo) (Ontology.terms hpo).
Proof.
  unfold build_codesystem, add_concepts. rewrite fold_loop_body. reflexivity.
Qed.

(** ** Entries *)

(** C1: the resource built from an ontology has as many concepts as the
    ontology has terms, and the concepts follow the terms in iteration
    order, the concept of a term carrying the term's identifier as its code
    and the term's name as its display.  Every term is paired with a
    concept, whatever its obsolete flag: none is filtered out. *)
Theorem C1_one_concept_per_term (hpo : Ontology.t) :
  length (CodeSystem.concept (build_codesystem hpo)) = length (Ontology.terms hpo)
  /\ Forall2
       (fun term entry =>
          CodeSystemConcept.code entry = Term.id term
          /\ CodeSystemConcept.display entry = Term.name term)
       (Ontology.terms hpo)
       (CodeSystem.concept (build_codesystem hpo)).
Proof.
  rewrite build_codesystem_concept. split.
  - apply length_map.
  - apply Forall2_map_right. intros term.
    split; [apply concept_of_code|apply concept_of_display].
Qed.







(** C4: the designations of the concept of a term are made from the term's
    synonyms of scope EXACT and from no other, in the order of the synonyms,
    each with language en, the synonym's text as value and the fixed
    Synonym coding as use; when the term has no synonym of scope EXACT the
    designation field is left unset rather than set to an empty list. *)
Theorem C4_exact_synonyms (hpo : Ontology.t) :
  Forall2
    (fun term entry =>
       CodeSystemConcept.designation entry
       = match filter (fun synonym => Synonym.scope synonym =? "EXACT")
                      (Term.synonyms term) with
         | [] => None
         | exact =>
             Some (map (fun synonym =>
                          {| CodeSystemConceptDesignation.language := "en";
                             CodeSystemConceptDesignation.value :=
                               Synonym.description synonym;
                             CodeSystemConceptDesignation.use :=
                               {| Coding.system := "http://snomed.info/sct";
                                  Coding.code := "900000000000013009";
                                  Coding.display := "Synonym" |} |})
                       exact)
         end)
    (Ontology.terms hpo)
    (CodeSystem.concept (build_codesystem hpo)).
Proof.
  rewrite build_codesystem_concept.
  apply Forall2_map_right. intros term.
  rewrite concept_of_designation, designations_of_closed.
  destruct (filter _ (Term.synonyms term)); reflexivity.
Qed.

(** ** Header *)

Lemma loop_keeps_header (hpo : Ontology.t) (terms : list Term.t)
      (stelsel : CodeSystem.t) :
  let after := fold_left (loop_body hpo) terms stelsel in
  CodeSystem.status after = CodeSystem.status stelsel
  /\ CodeSystem.content after = CodeSystem.content stelsel
  /\ CodeSystem.version after = CodeSystem.version stelsel
  /\ CodeSystem.name after = CodeSystem.name stelsel
  /\ CodeSystem.title after = CodeSystem.title stelsel
  /\ CodeSystem.versionNeeded after = CodeSystem.versionNeeded stelsel
  /\ CodeSystem.experimental after = CodeSystem.experimental stelsel
  /\ CodeSystem.url after = CodeSystem.url stelsel
  /\ CodeSystem.valueSet after = CodeSystem.valueSet stelsel
  /\ CodeSystem.count after = CodeSystem.count stelsel
  /\ CodeSystem.copyright after = CodeSystem.copyright stelsel
  /\ CodeSystem.purpose after = CodeSystem.purpose stelsel
  /\ CodeSystem.date after = CodeSystem.date stelsel.
Proof.
  revert stelsel; induction terms as [|term terms IH]; intros stelsel; simpl.
  - repeat split.
  - specialize (IH (loop_body hpo stelsel term)). simpl in IH. exact IH.
Qed.

Lemma date_is_last_segment (token : string) :
  exists front,
    Py.split "/" token
    = (front ++ [match Py.index_last (Py.split "/" token) with
                 | Some segment => segment
                 | None => EmptyString
                 end])%list.
Proof.
  destruct (index_last_decompose (Py.split "/" token) (split_not_nil _ _))
    as [front [segment [Hsplit Hlast]]].
  exists front. rewrite Hlast. exact Hsplit.
Qed.

(** C5: the version of the header is the base URI, then the version token of
    the ontology metadata, then the suffix; the date is the last of the
    segments that splitting the token at every slash gives, so it holds no
    slash, and the segments joined by slashes are the token again; a token
    without a slash is the date as a whole. *)
Theorem C5_version_and_date (hpo : Ontology.t) :
  let token := Metadata.data_version (Ontology.metadata hpo) in
  let stelsel := build_codesystem hpo in
  CodeSystem.version stelsel
  = "http://purl.obolibrary.org/obo/hp/" ++ token ++ "/hp.owl"
  /\ (exists front,
        Py.split "/" token = (front ++ [CodeSystem.date stelsel])%list
        /\ Py.join "/" (front ++ [CodeSystem.date stelsel]) = token)
  /\ Py.contains "/" (CodeSystem.date stelsel) = false
  /\ (Py.contains "/" token = true \/ CodeSystem.date stelsel = token).
Proof.
  intros token stelsel.
  destruct (loop_keeps_header hpo (Ontology.terms hpo) (stelsel_init hpo))
    as (_ & _ & Hversion & _ & _ & _ & _ & _ & _ & _ & _ & _ & Hdate).
  fold (add_concepts hpo (stelsel_init hpo)) in Hversion, Hdate.
  fold (build_codesystem hpo) in Hversion, Hdate. fold stelsel in Hversion, Hdate.
  simpl in Hversion, Hdate. fold token in Hversion, Hdate.
  destruct (date_is_last_segment token) as [front Hfront].
  rewrite <- Hdate in Hfront.
  split; [exact Hversion|]. split; [|split].
  - exists front. split; [exact Hfront|].
    rewrite <- Hfront. apply join_split.
  - pose proof (split_segments_clean "/" token) as Hclean.
    rewrite Hfront in Hclean. apply Forall_app in Hclean as [_ Hclean].
    now inversion Hclean.
  - destruct (Py.contains "/" token) eqn:Hslash; [now left|right].
    rewrite (split_without_sep _ _ Hslash) in Hfront.
    destruct front as [|seg front]; simpl in Hfront.
    + now inversion Hfront.
    + inversion Hfront as [[Hseg Hnil]]. now destruct front.
Qed.

(** C6: the count of the header is set from the number of terms before the
    loop, the loop leaves it as it is, and in the resource handed to the
    writer it is the length of the concept list. *)
Theorem C6_count_is_number_of_concepts (hpo : Ontology.t) :
  CodeSystem.count (stelsel_init hpo) = length (Ontology.terms hpo)
  /\ CodeSystem.count (build_codesystem hpo) = CodeSystem.count (stelsel_init hpo)
  /\ CodeSystem.count (build_codesystem hpo)
     = length (CodeSystem.concept (build_codesystem hpo)).
Proof.
  destruct (loop_keeps_header hpo (Ontology.terms hpo) (stelsel_init hpo))
    as (_ & _ & _ & _ & _ & _ & _ & _ & _ & Hcount & _).
  fold (add_concepts hpo (stelsel_init hpo)) in Hcount.
  fold (build_codesystem hpo) in Hcount.
  split; [reflexivity|]. split; [exact Hcount|].
  rewrite Hcount, build_codesystem_concept, length_map. reflexivity.
Qed.

(** C7: every term of the ontology has its concept in the resource, and
    that concept has its property field set, to a list that is not empty:
    its first element is the inactive property of the term, which is
    appended before any other. *)
Theorem C7_properties_never_empty (hpo : Ontology.t) :
  Forall2
    (fun term entry =>
       exists first rest,
         CodeSystemConcept.property entry = Some (first :: rest)
         /\ first :: rest <> []
         /\ first
            = CodeSystemConceptProperty.of_boolean "inactive" (Term.obsolete term)
         /\ CodeSystemConceptProperty.code first = "inactive")
    (Ontology.terms hpo)
    (CodeSystem.concept (build_codesystem hpo)).
Proof.
  rewrite build_codesystem_concept.
  apply Forall2_map_right. intros term.
  destruct (properties_of_cons hpo term) as [rest Hrest].
  exists (CodeSystemConceptProperty.of_boolean "inactive" (Term.obsolete term)), rest.
  rewrite concept_of_property, Hrest.
  split; [reflexivity|]. split; [discriminate|]. split; reflexivity.
Qed.

Lemma Forall_app_intro {A : Type} (P : A -> Prop) (l1 l2 : list A) :
  Forall P l1 -> Forall P l2 -> Forall P (l1 ++ l2).
Proof. intros H1 H2. apply Forall_app. now split. Qed.

Lemma properties_of_payload (hpo : Ontology.t) (term : Term.t) :
  Forall (fun p => payload_by_code p /\ CodeSystemConceptProperty.values_set p = 1)
         (properties_of hpo term).
Proof.
  rewrite properties_of_closed.
  repeat apply Forall_app_intro.
  - constructor; [|constructor]. split; [|reflexivity].
    left. simpl. repeat split; discriminate.
  - destruct (Term.definition term) as [[|a d]|]; constructor; [|constructor].
    split; [|reflexivity]. right; left. simpl. repeat split; auto; discriminate.
  - apply Forall_map_image. intros x. split; [|reflexivity].
    right; left. simpl. repeat split; auto; discriminate.
  - apply Forall_map_image. intros x. split; [|reflexivity].
    right; right. simpl. repeat split; auto; discriminate.
  - apply Forall_map_image. intros x. split; [|reflexivity].
    right; right. simpl. repeat split; auto; discriminate.
  - apply Forall_map_image. intros x. split; [|reflexivity].
    right; left. simpl. repeat split; auto; discriminate.
Qed.

(** C9: every property of every concept of the resource sets exactly one of
    its value fields, the one its code calls for: valueBoolean for
    inactive, valueString for definition, xref and subset, valueCode for
    parent and child. *)
Theorem C9_one_value_per_property (hpo : Ontology.t) :
  Forall
    (fun entry =>
       exists properties,
         CodeSystemConcept.property entry = Some properties
         /\ Forall
              (fun p =>
                 payload_by_code p /\ CodeSystemConceptProperty.values_set p = 1)
              properties)
    (CodeSystem.concept (build_codesystem hpo)).
Proof.
  rewrite build_codesystem_concept.
  apply Forall_map_image. intros term.
  exists (properties_of hpo term).
  split; [apply concept_of_property|apply properties_of_payload].
Qed.

(** C10: from any state of the resource, the loop over the terms leaves
    status, content, version, name, title, versionNeeded, experimental, url,
    valueSet, count, copyright, purpose and date as they were, and the
    concept list afterwards is the one before with concepts added at its
    end. *)
Theorem C10_loop_only_appends (hpo : Ontology.t) (stelsel : CodeSystem.t) :
  let after := add_concepts hpo stelsel in
  (CodeSystem.status after = CodeSystem.status stelsel
   /\ CodeSystem.content after = CodeSystem.content stelsel
   /\ CodeSystem.version after = CodeSystem.version stelsel
   /\ CodeSystem.name after = CodeSystem.name stelsel
   /\ CodeSystem.title after = CodeSystem.title stelsel
   /\ CodeSystem.versionNeeded after = CodeSystem.versionNeeded stelsel
   /\ CodeSystem.experimental after = CodeSystem.experimental stelsel
   /\ CodeSystem.url after = CodeSystem.url stelsel
   /\ CodeSystem.valueSet after = CodeSystem.valueSet stelsel
   /\ CodeSystem.count after = CodeSystem.count stelsel
   /\ CodeSystem.copyright after = CodeSystem.copyright stelsel
   /\ CodeSystem.purpose after = CodeSystem.purpose stelsel
   /\ CodeSystem.date after = CodeSystem.date stelsel)
  /\ exists appended,
       CodeSystem.concept after = (CodeSystem.concept stelsel ++ appended)%list
       /\ length appended = length (Ontology.terms hpo).
Proof.
  intros after. split.
  - exact (loop_keeps_header hpo (Ontology.terms hpo) stelsel).
  - exists (map (concept_of hpo) (Ontology.terms hpo)).
    unfold after, add_concepts. rewrite fold_loop_body.
    split; [reflexivity|apply length_map].
Qed.

(** ** The output file *)

Lemma substring_proper_prefix (n : nat) (text : string) :
  n < String.length text ->
  exists rest, rest <> EmptyString /\ text = substring 0 n text ++ rest.
Proof.
  revert text; induction n as [|n IH]; intros text Hlen.
  - exists text. split.
    + destruct text; [simpl in Hlen; lia|discriminate].
    + now destruct text.
  - destruct text as [|c text]; [simpl in Hlen; lia|].
    simpl in Hlen. destruct (IH text) as [rest [Hrest Htext]]; [lia|].
    exists rest. split; [exact Hrest|]. simpl. now rewrite <- Htext.
Qed.

(** The run as a case analysis on the environment. *)
Lemma generate_codesystem_cases (dumps : CodeSystem.t -> string)
      (env : Environment) (file : File) :
  generate_codesystem dumps env file
  = match fetch env url with
    | None => (Raised OntologyUnavailable, file)
    | Some hpo =>
        if writable env filename_output
        then match capacity env with
             | None => (Returned tt, Some (dumps (build_codesystem hpo)))
             | Some n =>
                 if (String.length (dumps (build_codesystem hpo)) <=? n)%nat
                 then (Returned tt, Some (dumps (build_codesystem hpo)))
                 else (Raised OSError,
                       Some (substring 0 n (dumps (build_codesystem hpo))))
             end
        else (Raised OSError, file)
    end.
Proof.
  unfold generate_codesystem, bind, load, open_w, write, ret, raise, download.
  destruct (fetch env url) as [hpo|]; [|reflexivity].
  destruct (writable env filename_output); [|reflexivity].
  destruct (capacity env) as [n|]; [|reflexivity].
  destruct (String.length (dumps (build_codesystem hpo)) <=? n)%nat; reflexivity.
Qed.

(** C8, as stated, fails: with an earlier export in place and a device that
    fails after one character, the run raises and leaves a file that holds
    only the first character of the document, neither the earlier export
    nor the whole document. *)
Lemma C8_counterexample :
  generate_codesystem braces almost_full (Some "earlier export")
  = (Raised OSError, Some "{")
  /\ ~ all_or_nothing braces almost_full (Some "earlier export").
Proof.
  split; [reflexivity|].
  unfold all_or_nothing.
  replace (generate_codesystem braces almost_full (Some "earlier export"))
    with (@Raised unit OSError, Some "{") by reflexivity.
  discriminate.
Qed.

(** C8, amended: a run ends in one of three ways.  It returns, and the
    output file holds the whole serialised document.  Or it raises before
    the output file is opened, because the ontology could not be loaded or
    the output path could not be opened for writing, and the output file is
    as it was.  Or it raises during the write: the file was truncated when
    it was opened, and it holds a proper prefix of the document. *)
Theorem C8_full_document_or_failure (dumps : CodeSystem.t -> string)
        (env : Environment) (file : File) :
  (exists hpo,
     fetch env url = Some hpo
     /\ generate_codesystem dumps env file
        = (Returned tt, Some (dumps (build_codesystem hpo))))
  \/ (exists e,
        generate_codesystem dumps env file = (Raised e, file)
        /\ (fetch env url = None \/ writable env filename_output = false))
  \/ (exists hpo written rest,
        fetch env url = Some hpo
        /\ writable env filename_output = true
        /\ generate_codesystem dumps env file = (Raised OSError, Some written)
        /\ rest <> EmptyString
        /\ dumps (build_codesystem hpo) = written ++ rest).
Proof.
  rewrite generate_codesystem_cases.
  destruct (fetch env url) as [hpo|] eqn:Hfetch.
  2:{ right; left. exists OntologyUnavailable. split; [reflexivity|now left]. }
  destruct (writable env filename_output) eqn:Hopen.
  2:{ right; left. exists OSError. split; [reflexivity|now right]. }
  destruct (capacity env) as [n|].
  2:{ left. exists hpo. split; reflexivity. }
  destruct (Nat.leb_spec (String.length (dumps (build_codesystem hpo))) n)
    as [Hfits|Hshort].
  - left. exists hpo. split; reflexivity.
  - right; right.
    destruct (substring_proper_prefix n _ Hshort) as [rest [Hrest Htext]].
    exists hpo, (substring 0 n (dumps (build_codesystem hpo))), rest.
    repeat split; auto.
Qed.

(** ** The sample ontology, run *)

Example sample_header :
  let stelsel := build_codesystem Sample.hpo in
  CodeSystem.version stelsel
  = "http://purl.obolibrary.org/obo/hp/hp/releases/2024-01-01/hp.owl"
  /\ CodeSystem.date stelsel = "2024-01-01"
  /\ CodeSystem.count stelsel = 2.
Proof. repeat split. Qed.

Example sample_first_concept :
  hd_error (CodeSystem.concept (build_codesystem Sample.hpo))
  = Some
      {| CodeSystemConcept.code := "X:001";
         CodeSystemConcept.display := "Test Phenotype";
         CodeSystemConcept.designation :=
           Some [ {| CodeSystemConceptDesignation.language := "en";
                     CodeSystemConceptDesignation.value := "Test Syn";
                     CodeSystemConceptDesignation.use := synonym_use |} ];
         CodeSystemConcept.property :=
           Some [ CodeSystemConceptProperty.of_boolean "inactive" false;
                  CodeSystemConceptProperty.of_string "xref" "UMLS:123";
                  CodeSystemConceptProperty.of_code "child" "X:002";
                  CodeSystemConceptProperty.of_string "subset" "core" ] |}.
Proof. reflexivity. Qed.

Example date_of_release_url :
  Py.index_last
    (Py.split "/" "http://purl.obolibrary.org/obo/hp/releases/2024-01-01/hp.owl")
  = Some "hp.owl".
Proof. reflexivity. Qed.

Example run_on_sample :
  generate_codesystem braces
    {| fetch := fun _ => Some Sample.hpo; from_obo_library := fun _ => None;
       writable := fun _ => true; capacity := None |}
    None
  = (Returned tt, Some "{}").
Proof. reflexivity. Qed.

(** * Further properties of the script *)

(** ** The date of the header (line 61) *)

Lemma split_app_sep (sep : ascii) (p d : string) :
  Py.split sep (p ++ String sep d) = (Py.split sep p ++ Py.split sep d)%list.
Proof.
  induction p as [|c p IH]; simpl.
  - now rewrite Ascii.eqb_refl.
  - rewrite IH. destruct (Ascii.eqb c sep); [reflexivity|].
    pose proof (split_not_nil sep p) as Hne.
    destruct (Py.split sep p) as [|seg segs]; [contradiction|reflexivity].
Qed.

Lemma index_last_app {A : Type} (l1 l2 : list A) :
  l2 <> [] -> Py.index_last (l1 ++ l2) = Py.index_last l2.
Proof.
  intros Hne. destruct (exists_last Hne) as [front [x ->]].
  rewrite app_assoc, !index_last_snoc. reflexivity.
Qed.

(** X1: when the version token is some prefix, a slash, and a rest that holds no
    slash, the date of the header is that rest; in particular a token that
    ends in a slash gives the empty date. *)
Theorem date_after_last_slash (hpo : Ontology.t) (p d : string) :
  Metadata.data_version (Ontology.metadata hpo) = p ++ "/" ++ d ->
  Py.contains "/" d = false ->
  CodeSystem.date (build_codesystem hpo) = d.
Proof.
  intros Htoken Hclean.
  destruct (loop_keeps_header hpo (Ontology.terms hpo) (stelsel_init hpo))
    as (_ & _ & _ & _ & _ & _ & _ & _ & _ & _ & _ & _ & Hdate).
  fold (add_concepts hpo (stelsel_init hpo)) in Hdate.
  fold (build_codesystem hpo) in Hdate.
  rewrite Hdate. unfold stelsel_init. cbn [CodeSystem.date].
  rewrite Htoken. change ("/" ++ d) with (String "/" d).
  rewrite split_app_sep, index_last_app by apply split_not_nil.
  now rewrite (split_without_sep _ _ Hclean).
Qed.

Lemma date_after_last_slash_witness :
  Metadata.data_version (Ontology.metadata Sample.hpo) = "hp/releases" ++ "/" ++ "2024-01-01"
  /\ Py.contains "/" "2024-01-01" = false
  /\ CodeSystem.date (build_codesystem Sample.hpo) = "2024-01-01".
Proof.
  split; [reflexivity|]. split; [reflexivity|].
  apply (date_after_last_slash Sample.hpo "hp/releases" "2024-01-01"); reflexivity.
Defined.

(** ** Codes, cross-references and subsets (lines 71 to 151) *)

(** X2: the codes of the concepts are the identifiers of the terms, in order and
    with their repetitions: the script neither removes nor checks
    duplicates, so the codes are pairwise distinct exactly when the
    identifiers are. *)
Theorem codes_are_term_ids (hpo : Ontology.t) :
  map CodeSystemConcept.code (CodeSystem.concept (build_codesystem hpo))
  = map Term.id (Ontology.terms hpo)
  /\ (NoDup (map CodeSystemConcept.code (CodeSystem.concept (build_codesystem hpo)))
      <-> NoDup (map Term.id (Ontology.terms hpo))).
Proof.
  assert (Hcodes :
    map CodeSystemConcept.code (CodeSystem.concept (build_codesystem hpo))
    = map Term.id (Ontology.terms hpo)).
  { rewrite build_codesystem_concept, map_map.
    apply map_ext. intros term. apply concept_of_code. }
  split; [exact Hcodes|]. rewrite Hcodes. reflexivity.
Qed.


(** X4: the resource has no concept exactly when the ontology has no term, and
    exactly then its count is 0. *)
Theorem no_terms_no_concepts (hpo : Ontology.t) :
  (CodeSystem.concept (build_codesystem hpo) = [] <-> Ontology.terms hpo = [])
  /\ (CodeSystem.count (build_codesystem hpo) = 0 <-> Ontology.terms hpo = []).
Proof.
  split.
  - rewrite build_codesystem_concept.
    destruct (Ontology.terms hpo); simpl; split; intros H;
      try reflexivity; discriminate.
  - destruct (loop_keeps_header hpo (Ontology.terms hpo) (stelsel_init hpo))
      as (_ & _ & _ & _ & _ & _ & _ & _ & _ & Hcount & _).
    fold (add_concepts hpo (stelsel_init hpo)) in Hcount.
    fold (build_codesystem hpo) in Hcount.
    rewrite Hcount. simpl. apply length_zero_iff_nil.
Qed.

(** ** What an entry and the header depend on *)

Lemma concept_of_with_terms (hpo : Ontology.t) (terms : list Term.t) (term : Term.t) :
  concept_of (with_terms hpo terms) term = concept_of hpo term.
Proof. reflexivity. Qed.

(** X5: the concept of a term does not depend on the terms around it: iterating
    over two lists of terms one after the other gives the concepts of the
    first list followed by the concepts of the second. *)
Theorem concepts_of_concatenation (hpo : Ontology.t) (first second : list Term.t) :
  CodeSystem.concept (build_codesystem (with_terms hpo (first ++ second)))
  = (CodeSystem.concept (build_codesystem (with_terms hpo first))
     ++ CodeSystem.concept (build_codesystem (with_terms hpo second)))%list.
Proof.
  rewrite !build_codesystem_concept. simpl. rewrite map_app.
  f_equal; apply map_ext; intros term; apply concept_of_with_terms.
Qed.

(** X6: the header depends on the ontology through its version token and its
    number of terms only: two ontologies that agree on both get the same
    header, whatever their terms and hierarchies are. *)
Theorem header_depends_on_token_and_size (hpo1 hpo2 : Ontology.t) :
  Metadata.data_version (Ontology.metadata hpo1)
  = Metadata.data_version (Ontology.metadata hpo2) ->
  length (Ontology.terms hpo1) = length (Ontology.terms hpo2) ->
  header_of (build_codesystem hpo1) = header_of (build_codesystem hpo2).
Proof.
  intros Htoken Hsize.
  unfold header_of, build_codesystem, add_concepts.
  rewrite !fold_loop_body. unfold CodeSystem.set_concept, stelsel_init. simpl.
  rewrite Htoken, Hsize. reflexivity.
Qed.

Lemma header_depends_on_token_and_size_witness :
  Metadata.data_version (Ontology.metadata Sample.hpo)
  = Metadata.data_version
      (Ontology.metadata (with_terms Sample.hpo [Sample.child; Sample.child]))
  /\ length (Ontology.terms Sample.hpo)
     = length (Ontology.terms (with_terms Sample.hpo [Sample.child; Sample.child]))
  /\ header_of (build_codesystem Sample.hpo)
     = header_of (build_codesystem (with_terms Sample.hpo [Sample.child; Sample.child])).
Proof.
  split; [reflexivity|]. split; [reflexivity|].
  apply (header_depends_on_token_and_size
           Sample.hpo (with_terms Sample.hpo [Sample.child; Sample.child]));
    reflexivity.
Defined.

(** ** The run (lines 36 to 43 and 156 to 157) *)

(** X7: a run that returns has replaced the output file: what it leaves does not
    depend on what the file held before, so the same run started from any
    other content, its own output included, returns with the same file. *)
Theorem rerun_overwrites (dumps : CodeSystem.t -> string) (env : Environment)
        (file file' : File) :
  generate_codesystem dumps env file = (Returned tt, file') ->
  forall earlier : File,
    generate_codesystem dumps env earlier = (Returned tt, file').
Proof.
  intros Hrun earlier. rewrite generate_codesystem_cases in *.
  destruct (fetch env url) as [hpo|]; [|discriminate].
  destruct (writable env filename_output); [|discriminate].
  destruct (capacity env) as [n|]; [|exact Hrun].
  destruct (String.length (dumps (build_codesystem hpo)) <=? n)%nat;
    [exact Hrun|discriminate].
Qed.

Lemma rerun_overwrites_witness :
  generate_codesystem braces online_only None = (Returned tt, Some "{}")
  /\ generate_codesystem braces online_only (Some "{}") = (Returned tt, Some "{}").
Proof.
  split; [reflexivity|].
  apply (rerun_overwrites braces online_only None (Some "{}")). reflexivity.
Defined.

(** X8: a run consults its environment at three points only: the download of the
    ontology from the fixed URL, the opening of hp.owl.json for writing, and
    the room on the device.  The download flag being set, the local copy
    of the ontology is never loaded, and no other path is opened. *)
Theorem run_reads_three_things (dumps : CodeSystem.t -> string)
        (env1 env2 : Environment) (file : File) :
  fetch env1 url = fetch env2 url ->
  writable env1 filename_output = writable env2 filename_output ->
  capacity env1 = capacity env2 ->
  generate_codesystem dumps env1 file = generate_codesystem dumps env2 file.
Proof.
  intros Hfetch Hopen Hroom.
  rewrite !generate_codesystem_cases, Hfetch, Hopen, Hroom. reflexivity.
Qed.

Lemma run_reads_three_things_witness :
  fetch online_only url = fetch with_local_copy url
  /\ writable online_only filename_output = writable with_local_copy filename_output
  /\ capacity online_only = capacity with_local_copy
  /\ generate_codesystem braces online_only None
     = generate_codesystem braces with_local_copy None.
Proof.
  repeat (split; [reflexivity|]).
  apply (run_reads_three_things braces online_only with_local_copy None);
    reflexivity.
Defined.
